(** * Plant monitor server (app.py)

    A shallow embedding of the Flask application in [app.py]: the module-level
    globals ([state], [temp_sensor], [soil_sensor]), the start-up block that
    initialises the two sensors, and the two JSON routes [get_sensor_data]
    (GET /data) and [set_calibration] (POST /calibrate).

    Python floats are IEEE binary64 numbers and are modelled by [spec_float]
    at precision 53; Python dictionaries are finite maps keyed by strings.
    The route GET / only serves a constant HTML page and touches none of the
    globals; it is left out.  Console output ([print]) is not modelled.
    Of the page's JavaScript, [updateUI] and [fetchSensorData] are embedded
    in module [JS]. *)

From Stdlib Require Import ZArith String Ascii List Floats.SpecFloat Lia.
From stdpp Require Import base option gmap strings.

#[local] Set Warnings "-register-all,-clear-no-such-hyp".
#[local] Open Scope Z_scope.
#[local] Open Scope string_scope.

(** ** Python floats *)

Module Float64.

Definition prec : Z := 53.
Definition emax : Z := 1024.

Abbreviation float := spec_float.

(** [a + b] on floats. *)
Definition add (a b : float) : float := SFadd prec emax a b.

(** [a < b], [a > b] and [a <= b] on floats; each is [False] as soon as one
    side is NaN. *)
Definition lt (a b : float) : bool := SFltb a b.
Definition gt (a b : float) : bool :=
  match SFcompare a b with Some Gt => true | _ => false end.
Definition le (a b : float) : bool := SFleb a b.

(** The float nearest to an integer (ties to even); an infinity when the
    integer is beyond the largest finite float. *)
Definition of_Z (z : Z) : float := binary_normalize prec emax z 0 false.

(** The float nearest to the quotient [n / d] of a signed numerator and a
    positive denominator. *)
Definition of_ratio (neg : bool) (n : N) (d : positive) : float :=
  match n with
  | N0 => S754_zero neg
  | Npos p => SFdiv prec emax (S754_finite neg p 0) (S754_finite false d 0)
  end.

Definition zero : float := S754_zero false.
Definition one : float := Eval cbv in of_Z 1.
Definition ten : float := Eval cbv in of_Z 10.
Definition neg_ten : float := Eval cbv in of_Z (-10).
Definition twenty : float := Eval cbv in of_Z 20.

End Float64.

Import Float64.

(** ** Python values and built-ins *)

(** The values [request.get_json()] can produce, which are also the values
    [jsonify] serialises. *)
Inductive pyval : Type :=
  | VNone
  | VBool (b : bool)
  | VInt (z : Z)
  | VFloat (f : float)
  | VStr (s : string)
  | VList (l : list pyval)
  | VDict (d : gmap string pyval).

(** The exceptions that occur in the handlers; [SensorError] stands for
    whatever a driver raises when a read fails.  [BadRequest] and
    [UnsupportedMediaType] are the HTTP exceptions that
    [request.get_json()] raises. *)
Variant pyexc : Type :=
  | AttributeError
  | BadRequest
  | KeyError
  | OverflowError
  | SensorError
  | TypeError
  | UnsupportedMediaType
  | ValueError.

(** A computation that returns a value or raises. *)
Variant result (A : Type) : Type :=
  | Ok (a : A)
  | Raise (e : pyexc).
Arguments Ok {A} a.
Arguments Raise {A} e.

#[global] Instance result_bind : MBind result := fun A B k r =>
  match r with
  | Ok a => k a
  | Raise e => Raise e
  end.
#[global] Instance result_ret : MRet result := @Ok.

(** [try: r / except: handler]: a bare [except] catches every exception. *)
Definition try_except {A : Type} (r : result A) (handler : A) : A :=
  match r with
  | Ok a => a
  | Raise _ => handler
  end.

(** [d[k]] on a dictionary. *)
Definition getitem {A : Type} (d : gmap string A) (k : string) : result A :=
  match d !! k with
  | Some v => Ok v
  | None => Raise KeyError
  end.

(** [data.get(k)]: only dictionaries have a [get] method, which answers
    [None] for a missing key. *)
Definition dict_get (data : pyval) (k : string) : result pyval :=
  match data with
  | VDict d => Ok (default VNone (d !! k))
  | _ => Raise AttributeError
  end.

(** [min(a, b)] and [max(a, b)] on two floats: the built-ins start from the
    first argument and replace it only when the next one compares strictly
    smaller (resp. strictly greater). *)
Definition py_min (a b : float) : float := if lt b a then b else a.
Definition py_max (a b : float) : float := if gt b a then b else a.

(** [float(int)]: raises [OverflowError] when the integer rounds beyond the
    largest finite float. *)
Definition float_of_int (z : Z) : result float :=
  match of_Z z with
  | S754_infinity _ => Raise OverflowError
  | f => Ok f
  end.

Section Builtins.

(** [float(str)] is the interpreter's own parser; [None] stands for the
    [ValueError] it raises on a string that is not a float literal. *)
Variable float_of_str : string -> option float.

(** [float(v)] on a value that came out of a JSON document. *)
Definition py_float (v : pyval) : result float :=
  match v with
  | VNone => Raise TypeError
  | VBool b => Ok (if b then one else zero)
  | VInt z => float_of_int z
  | VFloat f => Ok f
  | VStr s =>
      match float_of_str s with
      | Some f => Ok f
      | None => Raise ValueError
      end
  | VList _ => Raise TypeError
  | VDict _ => Raise TypeError
  end.

End Builtins.

(** ** Configuration and globals *)

Definition SOIL_SENSOR_PIN : Z := 17.

(** The two driver objects.  Neither class defines [__bool__] or [__len__],
    so an instance is truthy and only [None] is falsy. *)
Variant W1ThermSensor : Type := W1ThermSensor_obj.
Variant DigitalInputDevice : Type := DigitalInputDevice_obj (pin : Z).

(** The module globals of the running process. *)
Record world : Type := World {
  temp_sensor : option W1ThermSensor;
  soil_sensor : option DigitalInputDevice;
  state : gmap string float
}.

Definition truthy {A : Type} (o : option A) : bool :=
  match o with Some _ => true | None => false end.

(** What the hardware answers when the start-up block constructs the driver
    objects; [None] is a constructor that raises. *)
Record hardware : Type := Hardware {
  W1ThermSensor_init : option W1ThermSensor;
  DigitalInputDevice_init : Z -> option DigitalInputDevice
}.

(** Module import: [state = {'calibration_offset': 0.0}], then the
    [try]/[except Exception] block of the sensor initialisation.  The second
    constructor runs only when the first one returned; when either raises,
    both globals are set to [None]. *)
Definition startup (hw : hardware) : world :=
  let state0 : gmap string float := {[ "calibration_offset" := zero ]} in
  match W1ThermSensor_init hw with
  | Some t =>
      match DigitalInputDevice_init hw SOIL_SENSOR_PIN with
      | Some s => World (Some t) (Some s) state0
      | None => World None None state0
      end
  | None => World None None state0
  end.

(** ** Routes *)

(** What a handler hands back to Flask: a response with its status code and
    JSON body, or an exception that escaped the handler. *)
Variant outcome : Type :=
  | Returned (status : Z) (body : pyval)
  | Raised (e : pyexc).

(** Flask answers an escaped HTTP exception with the status it carries and
    an HTML page, and any other escaped exception with 500 Internal Server
    Error. *)
Definition http_status (o : outcome) : Z :=
  match o with
  | Returned status _ => status
  | Raised BadRequest => 400
  | Raised UnsupportedMediaType => 415
  | Raised _ => 500
  end.

(** What [request.get_json()] makes of a POST request: the parsed JSON
    document; a [BadRequest] when the body is not a JSON document the parser
    accepts (a syntax error, or an integer literal longer than the
    interpreter's digit limit); an [UnsupportedMediaType] when the request
    does not declare a JSON content type (Flask versions that return [None]
    there instead are the case [Parsed VNone]). *)
Variant json_request : Type :=
  | Parsed (data : pyval)
  | Unparsable
  | Unsupported.

Definition get_json (request : json_request) : result pyval :=
  match request with
  | Parsed data => Ok data
  | Unparsable => Raise BadRequest
  | Unsupported => Raise UnsupportedMediaType
  end.

(** What the two drivers answer during one GET /data request; [None] is a
    read that raises. *)
Record readings : Type := Readings {
  get_temperature : option float;
  is_active : option bool
}.

Definition read {A : Type} (r : option A) : result A :=
  match r with
  | Some a => Ok a
  | None => Raise SensorError
  end.

Definition opt_float (o : option float) : pyval :=
  match o with Some f => VFloat f | None => VNone end.

Definition opt_bool (o : option bool) : pyval :=
  match o with Some b => VBool b | None => VNone end.

(** The dictionary passed to [jsonify] by [get_sensor_data]. *)
Definition data_body (temperature is_wet calibration_offset : pyval) : pyval :=
  VDict {[ "temperature" := temperature;
           "is_wet" := is_wet;
           "calibration_offset" := calibration_offset ]}.

Definition status_body (s : string) : pyval := VDict {[ "status" := VStr s ]}.

(** [get_sensor_data], the handler of GET /data. *)
Definition get_sensor_data (env : readings) (w : world) : outcome * world :=
  let '(calibrated_temp, is_wet) :=
    if truthy (temp_sensor w) && truthy (soil_sensor w) then
      (try_except
         (raw_temp ← read (get_temperature env);
          offset ← getitem (state w) "calibration_offset";
          mret (Some (add raw_temp offset)))
         None,
       try_except
         (active ← read (is_active env);
          mret (Some (negb active)))
         None)
    else (Some twenty, Some false) in
  match getitem (state w) "calibration_offset" with
  | Ok offset =>
      (Returned 200
         (data_body (opt_float calibrated_temp) (opt_bool is_wet) (VFloat offset)),
       w)
  | Raise e => (Raised e, w)
  end.

Section Handlers.

Variable float_of_str : string -> option float.

(** [set_calibration], the handler of POST /calibrate. *)
Definition set_calibration (request : json_request) (w : world) : outcome * world :=
  match data ← get_json request; dict_get data "offset" with
  | Raise e => (Raised e, w)
  | Ok VNone => (Returned 400 (status_body "error"), w)
  | Ok offset =>
      match py_float float_of_str offset with
      | Raise e => (Raised e, w)
      | Ok f =>
          (Returned 200 (status_body "success"),
           World (temp_sensor w) (soil_sensor w)
             (<[ "calibration_offset" := py_max neg_ten (py_min ten f) ]> (state w)))
      end
  end.

(** One request served by the process. *)
Variant request : Type :=
  | GET_data (env : readings)
  | POST_calibrate (request : json_request).

Definition handle (r : request) (w : world) : outcome * world :=
  match r with
  | GET_data env => get_sensor_data env w
  | POST_calibrate request => set_calibration request w
  end.

(** The globals after serving a list of requests one after the other. *)
Fixpoint serve (rs : list request) (w : world) : world :=
  match rs with
  | nil => w
  | r :: rs' => serve rs' (snd (handle r w))
  end.

(** The states the process can be in after starting on hardware [hw]. *)
Inductive reachable (hw : hardware) : world -> Prop :=
  | reach_start : reachable hw (startup hw)
  | reach_step (r : request) (w : world) :
      reachable hw w -> reachable hw (snd (handle r w)).

End Handlers.

(** ** A parser for decimal literals

    An instance of [float(str)] for the literals [[+-]digits[.digits]], which
    is what the page's slider sends ([calSlider.value] is a string such as
    "2.5").  It is used to run the handlers on concrete requests.  The
    interpreter accepts more forms (exponents, [inf], [nan], surrounding
    blanks, underscores), on which this instance answers [None]; the general
    statements below hold for every parser. *)

Definition digit_of (c : ascii) : option N :=
  let n := N_of_ascii c in
  if ((48 <=? n) && (n <=? 57))%N then Some (n - 48)%N else None.

(** Reads the longest run of digits, continuing the number [acc]; answers the
    number, how many digits were read, and the rest of the input. *)
Fixpoint take_digits (cs : list ascii) (acc : N) (count : nat)
  : N * nat * list ascii :=
  match cs with
  | c :: cs' =>
      match digit_of c with
      | Some d => take_digits cs' (10 * acc + d)%N (S count)
      | None => (acc, count, cs)
      end
  | nil => (acc, count, nil)
  end.

Definition take_sign (cs : list ascii) : bool * list ascii :=
  match cs with
  | "-"%char :: cs' => (true, cs')
  | "+"%char :: cs' => (false, cs')
  | _ => (false, cs)
  end.

Definition decimal_literal (s : string) : option float :=
  let '(neg, cs) := take_sign (list_ascii_of_string s) in
  let '(int_part, n_int, cs) := take_digits cs 0%N 0%nat in
  let '(mantissa, n_frac, cs) :=
    match cs with
    | "."%char :: cs' => take_digits cs' int_part 0%nat
    | _ => (int_part, 0%nat, cs)
    end in
  match cs, (n_int + n_frac)%nat with
  | nil, S _ => Some (of_ratio neg mantissa (Z.to_pos (10 ^ Z.of_nat n_frac)))
  | _, _ => None
  end.

(** ** Vocabulary of the specification *)

(** The two operating modes of the sensor reader: [Ready] when the test
    [temp_sensor and soil_sensor] of [get_sensor_data] succeeds. *)
Variant mode : Type := Ready | FallbackMode.

Definition mode_of (w : world) : mode :=
  if truthy (temp_sensor w) && truthy (soil_sensor w) then Ready else FallbackMode.

(** The stored calibration offset, [state['calibration_offset']]. *)
Definition stored_offset (w : world) : option float :=
  state w !! "calibration_offset".

(** [-10.0 <= f <= 10.0]. *)
Definition in_range (f : float) : Prop :=
  le neg_ten f = true /\ le f ten = true.

(** The temperature and moisture fields of the response in either mode. *)
Definition temperature_field (env : readings) (w : world) (offset : float) : pyval :=
  match mode_of w with
  | Ready => opt_float ((fun raw_temp => add raw_temp offset) <$> get_temperature env)
  | FallbackMode => VFloat twenty
  end.

Definition is_wet_field (env : readings) (w : world) : pyval :=
  match mode_of w with
  | Ready => opt_bool (negb <$> is_active env)
  | FallbackMode => VBool false
  end.

(** A JSON number: an integer or a float literal of the request body. *)
Definition json_number (v : pyval) : bool :=
  match v with
  | VInt _ | VFloat _ => true
  | _ => false
  end.

(** The request body is a JSON object whose [offset] is absent or [null]. *)
Definition offset_missing (data : pyval) : bool :=
  match data with
  | VDict d =>
      match d !! "offset" with
      | None | Some VNone => true
      | Some _ => false
      end
  | _ => false
  end.

(** The request whose body is the JSON document [{"offset": v}]. *)
Definition offset_request (v : pyval) : json_request :=
  Parsed (VDict {[ "offset" := v ]}).

(** The globals after a successful calibration to [f]. *)
Definition calibrated (w : world) (f : float) : world :=
  World (temp_sensor w) (soil_sensor w) (<[ "calibration_offset" := f ]> (state w)).

(** Float literals used in the scenarios: 2.5, 22.3 and 24.8. *)
Definition lit_2_5 : float := Eval cbv in of_ratio false 25 10.
Definition lit_22_3 : float := Eval cbv in of_ratio false 223 10.
Definition lit_24_8 : float := Eval cbv in of_ratio false 248 10.

(** A board without sensors, and one with both. *)
Definition no_sensors : hardware := Hardware None (fun _ => None).
Definition both_sensors : hardware :=
  Hardware (Some W1ThermSensor_obj) (fun pin => Some (DigitalInputDevice_obj pin)).

(** A float that is neither NaN nor an infinity, which is what a JSON number
    can spell. *)
Definition is_finite (f : float) : bool :=
  match f with
  | S754_zero _ | S754_finite _ _ _ => true
  | S754_infinity _ | S754_nan => false
  end.

(** The requests that go to POST /calibrate. *)
Definition is_calibrate (r : request) : bool :=
  match r with
  | POST_calibrate _ => true
  | GET_data _ => false
  end.

(** The temperature and the moisture flag that GET /data reports, [None] for
    a JSON [null]. *)
Definition reported_temperature (env : readings) (w : world) (offset : float)
  : option float :=
  match mode_of w with
  | Ready => (fun raw_temp => add raw_temp offset) <$> get_temperature env
  | FallbackMode => Some twenty
  end.

Definition reported_is_wet (env : readings) (w : world) : option bool :=
  match mode_of w with
  | Ready => negb <$> is_active env
  | FallbackMode => Some false
  end.

(** ** The page's script

    The JavaScript of [HTML_DOCUMENT] that talks to the two routes:
    [updateUI] and [fetchSensorData].  JavaScript numbers are binary64 floats;
    the values read off a parsed JSON response are the JSON values above, with
    [None] for [undefined].  The elements of the page are kept as the strings
    and class lists the script assigns to them; what the browser does with an
    assigned value (parsing a CSS width, bounding a slider) is not modelled. *)

Module JS.

Definition sub (a b : float) : float := SFsub prec emax a b.
Definition mul (a b : float) : float := SFmul prec emax a b.
Definition div (a b : float) : float := SFdiv prec emax a b.

Definition eighty : float := Eval cbv in of_Z 80.
Definition hundred : float := Eval cbv in of_Z 100.

Definition is_nan (f : float) : bool :=
  match f with S754_nan => true | _ => false end.

Definition is_zero (f : float) : bool :=
  match f with S754_zero _ => true | _ => false end.

(** [Math.min(a, b)] and [Math.max(a, b)]: NaN when either argument is NaN,
    and -0 counts as smaller than +0. *)
Definition Math_min (a b : float) : float :=
  match SFcompare a b with
  | None => S754_nan
  | Some Lt => a
  | Some Gt => b
  | Some Eq =>
      match a, b with
      | S754_zero sa, S754_zero sb => S754_zero (sa || sb)
      | _, _ => a
      end
  end.

Definition Math_max (a b : float) : float :=
  match SFcompare a b with
  | None => S754_nan
  | Some Lt => b
  | Some Gt => a
  | Some Eq =>
      match a, b with
      | S754_zero sa, S754_zero sb => S754_zero (sa && sb)
      | _, _ => a
      end
  end.

(** [data.k]: a [TypeError] on [null], [undefined] on a value that has no
    such property. *)
Definition prop (data : pyval) (k : string) : result (option pyval) :=
  match data with
  | VNone => Raise TypeError
  | VDict d => Ok (d !! k)
  | _ => Ok None
  end.

(** [v !== null]. *)
Definition not_null (v : option pyval) : bool :=
  match v with
  | Some VNone => false
  | _ => true
  end.

(** The truth value of [v] in a condition. *)
Definition to_boolean (v : option pyval) : bool :=
  match v with
  | None => false
  | Some VNone => false
  | Some (VBool b) => b
  | Some (VInt z) => negb (z =? 0)%Z
  | Some (VFloat f) => negb (is_zero f || is_nan f)
  | Some (VStr s) => negb (String.eqb s "")
  | Some (VList _) => true
  | Some (VDict _) => true
  end.

(** The receiver of [v.toFixed(1)]: only a number has the method, every
    other value makes the call a [TypeError]. *)
Definition number (v : option pyval) : result float :=
  match v with
  | Some (VInt z) => Ok (of_Z z)
  | Some (VFloat f) => Ok f
  | _ => Raise TypeError
  end.

(** What the script has assigned to the elements it looks up by id. *)
Record page : Type := Page {
  status_textContent : string;
  status_className : string;
  tempValue_textContent : string;
  tempFill_style_width : string;
  moistureBox_classList : list string;
  moistureStatus_textContent : string;
  moistureStatus_className : string;
  calValue_textContent : string;
  calSlider_value : string
}.

(** The elements as the HTML document declares them. *)
Definition initial_page : page := {|
  status_textContent := "Fetching data...";
  status_className := "text-center font-semibold text-yellow-600";
  tempValue_textContent := "--.-°C";
  tempFill_style_width := "";
  moistureBox_classList := ["flex"; "items-center"; "p-4"; "rounded-lg"; "border-2"];
  moistureStatus_textContent := "Waiting...";
  moistureStatus_className := "text-xl font-bold text-gray-500";
  calValue_textContent := "0.0°C";
  calSlider_value := "0.0"
|}.

(** [classList.remove(...tokens)] and [classList.add(...tokens)]. *)
Definition classList_remove (tokens classes : list string) : list string :=
  List.filter (fun c => negb (bool_decide (c ∈ tokens))) classes.

Definition classList_add (tokens classes : list string) : list string :=
  fold_left (fun (cs : list string) (t : string) =>
               if bool_decide (t ∈ cs) then cs else (cs ++ [t])%list)
    tokens classes.

Definition set_temperature (text width : string) (p : page) : page :=
  Page (status_textContent p) (status_className p) text width
    (moistureBox_classList p) (moistureStatus_textContent p)
    (moistureStatus_className p) (calValue_textContent p) (calSlider_value p).

Definition set_moistureBox (classes : list string) (p : page) : page :=
  Page (status_textContent p) (status_className p) (tempValue_textContent p)
    (tempFill_style_width p) classes (moistureStatus_textContent p)
    (moistureStatus_className p) (calValue_textContent p) (calSlider_value p).

Definition set_moistureStatus (text className : string) (p : page) : page :=
  Page (status_textContent p) (status_className p) (tempValue_textContent p)
    (tempFill_style_width p) (moistureBox_classList p) text className
    (calValue_textContent p) (calSlider_value p).

Definition set_calibration_display (text value : string) (p : page) : page :=
  Page (status_textContent p) (status_className p) (tempValue_textContent p)
    (tempFill_style_width p) (moistureBox_classList p)
    (moistureStatus_textContent p) (moistureStatus_className p) text value.

Definition set_status (text className : string) (p : page) : page :=
  Page text className (tempValue_textContent p) (tempFill_style_width p)
    (moistureBox_classList p) (moistureStatus_textContent p)
    (moistureStatus_className p) (calValue_textContent p) (calSlider_value p).

(** [((temperature - -10) / (80 - -10)) * 100]. *)
Definition percentage (temperature : float) : float :=
  mul (div (sub temperature neg_ten) (sub eighty neg_ten)) hundred.

(** [Math.max(0, Math.min(100, percentage))], the number written into the
    width of the temperature bar. *)
Definition fill_percentage (temperature : float) : float :=
  Math_max zero (Math_min hundred (percentage temperature)).

(** [jsonify] writes a float that is NaN or an infinity as the bare token
    [NaN] or [Infinity], which no JSON parser accepts; every other value of
    a body is written as JSON that reads back as the same value. *)
Fixpoint json_valid (v : pyval) : bool :=
  match v with
  | VFloat f => is_finite f
  | VList l => forallb json_valid l
  | VDict d => map_fold (fun _ v acc => json_valid v && acc) true d
  | _ => true
  end.

(** What [await response.json()] yields for an answer of the server: the
    body, when [jsonify] wrote JSON; nothing, the promise being rejected,
    when the text holds [NaN] or [Infinity] or when the answer is the HTML
    page of an escaped exception. *)
Definition response_json (o : outcome) : option pyval :=
  match o with
  | Returned _ body => if json_valid body then Some body else None
  | Raised _ => None
  end.

Section Script.

(** [x.toFixed(1)] and the conversion of a number to a string are the
    JavaScript engine's. *)
Variable toFixed1 : float -> string.
Variable to_string : float -> string.

(** A statement sequence ends when a statement throws; what was assigned
    before stays assigned. *)
Definition and_then (r : page * option pyexc) (k : page -> page * option pyexc)
  : page * option pyexc :=
  match r with
  | (p, None) => k p
  | (p, Some e) => (p, Some e)
  end.

(** The block guarded by [data.temperature !== null]: the call of [toFixed]
    comes first, so a [TypeError] leaves both elements as they were. *)
Definition update_temperature (data : pyval) (p : page) : page * option pyexc :=
  match prop data "temperature" with
  | Raise e => (p, Some e)
  | Ok temperature =>
      if not_null temperature then
        match number temperature with
        | Raise e => (p, Some e)
        | Ok t =>
            (set_temperature (toFixed1 t ++ "°C")
               (to_string (fill_percentage t) ++ "%") p,
             None)
        end
      else (p, None)
  end.

(** [classList.remove] of the four colour classes, then the branch on
    [data.is_wet]. *)
Definition update_moisture (data : pyval) (p : page) : page * option pyexc :=
  let p := set_moistureBox
             (classList_remove
                ["border-green-500"; "bg-green-50"; "border-red-500"; "bg-red-50"]
                (moistureBox_classList p)) p in
  match prop data "is_wet" with
  | Raise e => (p, Some e)
  | Ok is_wet =>
      if to_boolean is_wet then
        (set_moistureBox
           (classList_add ["border-green-500"; "bg-green-50"] (moistureBox_classList p))
           (set_moistureStatus "Wet" "text-xl font-bold text-green-600" p),
         None)
      else
        (set_moistureBox
           (classList_add ["border-red-500"; "bg-red-50"] (moistureBox_classList p))
           (set_moistureStatus "Dry" "text-xl font-bold text-red-600" p),
         None)
  end.

(** The last two statements, on [data.calibration_offset]. *)
Definition update_calibration (data : pyval) (p : page) : page * option pyexc :=
  match prop data "calibration_offset" with
  | Raise e => (p, Some e)
  | Ok calibration_offset =>
      match number calibration_offset with
      | Raise e => (p, Some e)
      | Ok c => (set_calibration_display (toFixed1 c ++ "°C") (to_string c) p, None)
      end
  end.

(** [updateUI(data)]: the page afterwards, and the exception if a statement
    threw. *)
Definition updateUI (data : pyval) (p : page) : page * option pyexc :=
  and_then (update_temperature data p) (fun p =>
  and_then (update_moisture data p) (fun p =>
  update_calibration data p)).

(** [fetchSensorData()]: [response] is the parsed body of GET /data, or
    [None] when [fetch] or [response.json()] rejected.  Any exception ends in
    the [catch] block. *)
Definition fetchSensorData (response : option pyval) (p : page) : page :=
  match response with
  | Some data =>
      match updateUI data p with
      | (p', None) =>
          set_status "Connected" "text-center font-semibold text-green-600" p'
      | (p', Some _) =>
          set_status "Connection Error" "text-center font-semibold text-red-500" p'
      end
  | None =>
      set_status "Connection Error" "text-center font-semibold text-red-500" p
  end.

End Script.

End JS.

(** * Properties *)

(** ** Comparisons and the clamp *)

Section FloatFacts.

Lemma SFcompare_antisym (a b : float) :
  SFcompare b a = CompOpp <$> SFcompare a b.
Proof.
  destruct a as [sa|sa| |sa ma ea], b as [sb|sb| |sb mb eb];
    try destruct sa; try destruct sb; try reflexivity; simpl;
    rewrite (Z.compare_antisym ea eb);
    destruct (ea ?= eb)%Z; simpl; try reflexivity;
    pose proof (Pos.compare_cont_antisym ma mb Eq) as Hm; simpl in Hm;
    rewrite <- Hm; destruct (Pos.compare_cont Eq ma mb); reflexivity.
Qed.

Lemma lt_le (a b : float) : lt a b = true -> le a b = true.
Proof.
  unfold lt, le, SFltb, SFleb.
  destruct (SFcompare a b) as [[]|]; congruence.
Qed.

Lemma gt_le (a b : float) : gt a b = true -> le b a = true.
Proof.
  unfold gt, le, SFleb. rewrite (SFcompare_antisym a b).
  destruct (SFcompare a b) as [[]|]; simpl; congruence.
Qed.

(** Either bound, or the argument itself when it lies strictly between. *)
Lemma clamp_cases (f : float) :
  let c := py_max neg_ten (py_min ten f) in
  c = neg_ten \/ c = ten \/ (c = f /\ gt f neg_ten = true /\ lt f ten = true).
Proof.
  unfold py_max, py_min. destruct (lt f ten) eqn:Hlt.
  - destruct (gt f neg_ten) eqn:Hgt; auto.
  - right; left. reflexivity.
Qed.

Lemma clamp_in_range (f : float) :
  le neg_ten (py_max neg_ten (py_min ten f)) = true /\
  le (py_max neg_ten (py_min ten f)) ten = true.
Proof.
  destruct (clamp_cases f) as [-> | [-> | (-> & Hgt & Hlt)]].
  - split; reflexivity.
  - split; reflexivity.
  - split; [apply gt_le, Hgt | apply lt_le, Hlt].
Qed.

(** A value already within the bounds is stored as it is. *)
Lemma clamp_id (f : float) :
  gt f neg_ten = true -> lt f ten = true ->
  py_max neg_ten (py_min ten f) = f.
Proof.
  intros Hgt Hlt. unfold py_max, py_min. rewrite Hlt, Hgt. reflexivity.
Qed.

End FloatFacts.

(** ** The calibration route *)

Section Calibration.

Variable float_of_str : string -> option float.

Lemma set_calibration_dict (d : gmap string pyval) (w : world) :
  set_calibration float_of_str (Parsed (VDict d)) w =
  match default VNone (d !! "offset") with
  | VNone => (Returned 400 (status_body "error"), w)
  | offset =>
      match py_float float_of_str offset with
      | Raise e => (Raised e, w)
      | Ok f =>
          (Returned 200 (status_body "success"),
           calibrated w (py_max neg_ten (py_min ten f)))
      end
  end.
Proof.
  unfold set_calibration, get_json, dict_get. simpl.
  destruct (default VNone (d !! "offset")); reflexivity.
Qed.

(** When [float(offset)] yields [f], the clamp of [f] is stored. *)
Lemma set_calibration_ok (d : gmap string pyval) (w : world) (v : pyval) (f : float) :
  d !! "offset" = Some v -> py_float float_of_str v = Ok f ->
  set_calibration float_of_str (Parsed (VDict d)) w =
  (Returned 200 (status_body "success"),
   calibrated w (py_max neg_ten (py_min ten f))).
Proof.
  intros Hd Hf. rewrite set_calibration_dict, Hd.
  change (default VNone (Some v)) with v.
  destruct v; first [discriminate Hf | rewrite Hf; reflexivity].
Qed.

(** When [float(offset)] raises, the exception escapes and nothing is
    stored. *)
Lemma set_calibration_raises (d : gmap string pyval) (w : world) (v : pyval) (e : pyexc) :
  d !! "offset" = Some v -> v <> VNone -> py_float float_of_str v = Raise e ->
  set_calibration float_of_str (Parsed (VDict d)) w = (Raised e, w).
Proof.
  intros Hd Hv Hf. rewrite set_calibration_dict, Hd.
  change (default VNone (Some v)) with v.
  destruct v; first [congruence | rewrite Hf; reflexivity].
Qed.

Lemma stored_offset_calibrated (w : world) (f : float) :
  stored_offset (calibrated w f) = Some f.
Proof. unfold stored_offset, calibrated. simpl. apply lookup_insert_eq. Qed.

(** A float offset is always accepted, clamped and stored; so is an integer
    offset that [float] can convert. *)
Lemma set_calibration_float (w : world) (f : float) :
  set_calibration float_of_str (offset_request (VFloat f)) w =
  (Returned 200 (status_body "success"),
   calibrated w (py_max neg_ten (py_min ten f))).
Proof.
  apply (set_calibration_ok _ _ (VFloat f)); [apply lookup_singleton_eq | reflexivity].
Qed.

Lemma set_calibration_int (w : world) (z : Z) (f : float) :
  float_of_int z = Ok f ->
  set_calibration float_of_str (offset_request (VInt z)) w =
  (Returned 200 (status_body "success"),
   calibrated w (py_max neg_ten (py_min ten f))).
Proof.
  intros Hz.
  apply (set_calibration_ok _ _ (VInt z)); [apply lookup_singleton_eq | exact Hz].
Qed.

(** [float] raises one of three exceptions, none of them an HTTP exception. *)
Lemma py_float_raises (v : pyval) (e : pyexc) :
  py_float float_of_str v = Raise e ->
  e = TypeError \/ e = ValueError \/ e = OverflowError.
Proof.
  destruct v as [|b|z|f|s|l|d]; simpl; try (intros [= <-]; auto); try discriminate.
  - unfold float_of_int. destruct (of_Z z); intros [= <-]; auto.
  - destruct (float_of_str s); intros [= <-]; auto.
Qed.

(** The ways a calibrate request can end: the 400 of the handler, a stored
    clamp, or an escaped exception; only the second one writes. *)
Lemma set_calibration_cases (request : json_request) (w : world) :
  set_calibration float_of_str request w =
    (Returned 400 (status_body "error"), w) \/
  (exists f, set_calibration float_of_str request w =
             (Returned 200 (status_body "success"),
              calibrated w (py_max neg_ten (py_min ten f)))) \/
  (exists e, set_calibration float_of_str request w = (Raised e, w)).
Proof.
  destruct request as [data| |];
    [|right; right; eexists; reflexivity ..].
  destruct data as [| | | | | |d];
    try (right; right; exists AttributeError; reflexivity).
  rewrite set_calibration_dict.
  destruct (default VNone (d !! "offset")) as [|b|z|f|s|l|d'];
    [left; reflexivity | ..];
    match goal with
    | |- context [py_float ?p ?v] => destruct (py_float p v) as [f'|e]
    end;
    solve [ right; left; exists f'; reflexivity
          | right; right; exists e; reflexivity ].
Qed.

(** Whatever the request, a response other than 200 leaves the globals as
    they were. *)
Lemma set_calibration_failure_keeps_world (request : json_request) (w : world) :
  http_status (fst (set_calibration float_of_str request w)) <> 200 ->
  snd (set_calibration float_of_str request w) = w.
Proof.
  destruct (set_calibration_cases request w) as [-> | [[f ->] | [e ->]]];
    try reflexivity.
  intros H. exfalso. apply H. reflexivity.
Qed.

(** A body that [request.get_json()] rejects is answered by Flask with the
    status of the HTTP exception, and nothing is stored. *)
Lemma set_calibration_unparsable (w : world) :
  set_calibration float_of_str Unparsable w = (Raised BadRequest, w) /\
  http_status (fst (set_calibration float_of_str Unparsable w)) = 400.
Proof. split; reflexivity. Qed.

Lemma set_calibration_unsupported (w : world) :
  set_calibration float_of_str Unsupported w = (Raised UnsupportedMediaType, w) /\
  http_status (fst (set_calibration float_of_str Unsupported w)) = 415.
Proof. split; reflexivity. Qed.

End Calibration.

Section CalibrationClaims.

Variable float_of_str : string -> option float.

(** C1 (failing input).  The request body [{"offset": 2^1024}] carries a
    numeric offset, written as a 309-digit integer literal.  [float(offset)]
    raises [OverflowError] before the clamp is reached: the exception escapes
    the handler (HTTP 500) and the stored offset is not replaced, whereas the
    claim promises [{"status": "success"}] and a stored offset of 10.0. *)
Theorem set_calibration_huge_int_raises (w : world) :
  json_number (VInt (2 ^ 1024)) = true /\
  set_calibration float_of_str (offset_request (VInt (2 ^ 1024))) w =
    (Raised OverflowError, w) /\
  http_status (fst (set_calibration float_of_str (offset_request (VInt (2 ^ 1024))) w)) = 500.
Proof.
  assert (Hraise : set_calibration float_of_str (offset_request (VInt (2 ^ 1024))) w =
                   (Raised OverflowError, w)).
  { apply (set_calibration_raises _ _ _ (VInt (2 ^ 1024))).
    - apply lookup_singleton_eq.
    - discriminate.
    - vm_compute. reflexivity. }
  rewrite Hraise. repeat split.
Qed.

(** C2 (amended).  When [request.get_json()] returns a JSON object whose
    [offset] is absent or [null], POST /calibrate answers HTTP 400 with body
    [{"status": "error"}] and leaves the globals, hence the stored offset,
    unchanged. *)
Theorem set_calibration_rejects_missing_offset (data : pyval) (w : world) :
  offset_missing data = true ->
  set_calibration float_of_str (Parsed data) w =
    (Returned 400 (status_body "error"), w) /\
  http_status (fst (set_calibration float_of_str (Parsed data) w)) = 400 /\
  stored_offset (snd (set_calibration float_of_str (Parsed data) w)) = stored_offset w.
Proof.
  destruct data as [| | | | | |d]; try discriminate.
  unfold offset_missing. rewrite set_calibration_dict.
  destruct (d !! "offset") as [[|b|z|f|s|l|d']|]; try discriminate;
    intros _; repeat split.
Qed.

(** C9.  When the [offset] of the request is a string that [float] parses
    to [f], POST /calibrate answers 200 with [{"status": "success"}] and the
    stored offset becomes [max(-10.0, min(10.0, f))], which lies within
    [-10.0, 10.0]. *)
Theorem set_calibration_numeric_string
    (d : gmap string pyval) (w : world) (s : string) (f : float) :
  d !! "offset" = Some (VStr s) ->
  float_of_str s = Some f ->
  let r := set_calibration float_of_str (Parsed (VDict d)) w in
  fst r = Returned 200 (status_body "success") /\
  snd r = calibrated w (py_max neg_ten (py_min ten f)) /\
  stored_offset (snd r) = Some (py_max neg_ten (py_min ten f)) /\
  in_range (py_max neg_ten (py_min ten f)).
Proof.
  intros Hd Hs r. subst r.
  rewrite (set_calibration_ok float_of_str d w (VStr s) f Hd).
  - simpl. repeat split; try apply stored_offset_calibrated; apply clamp_in_range.
  - simpl. rewrite Hs. reflexivity.
Qed.

End CalibrationClaims.

(** C2 (counterexample).  The body [{"offset": "2.5"}], as the page's slider
    sends it, has an [offset] that is a string and not a JSON number; the
    handler does not answer 400 but 200 with [{"status": "success"}], and the
    stored offset changes from 0.0 to 2.5. *)
Lemma set_calibration_string_not_rejected :
  let w := startup no_sensors in
  let r := set_calibration decimal_literal (offset_request (VStr "2.5")) w in
  json_number (VStr "2.5") = false /\
  ~ (fst r = Returned 400 (status_body "error") /\ snd r = w) /\
  fst r = Returned 200 (status_body "success") /\
  stored_offset w = Some zero /\
  stored_offset (snd r) = Some lit_2_5.
Proof.
  cbv zeta. split; [reflexivity|]. split.
  - intros [H _]. vm_compute in H. discriminate H.
  - repeat split; vm_compute; reflexivity.
Qed.

(** The body [{}] is answered with 400 and nothing changes. *)
Lemma set_calibration_rejects_missing_offset_witness :
  let w := startup no_sensors in
  offset_missing (VDict ∅) = true /\
  set_calibration decimal_literal (Parsed (VDict ∅)) w =
    (Returned 400 (status_body "error"), w) /\
  http_status (fst (set_calibration decimal_literal (Parsed (VDict ∅)) w)) = 400 /\
  stored_offset (snd (set_calibration decimal_literal (Parsed (VDict ∅)) w)) =
    stored_offset w.
Proof.
  cbv zeta. split; [reflexivity|].
  apply (set_calibration_rejects_missing_offset decimal_literal (VDict ∅)
           (startup no_sensors)).
  reflexivity.
Defined.

(** The slider value "2.5" on a freshly started process. *)
Lemma set_calibration_numeric_string_witness :
  let r := set_calibration decimal_literal (offset_request (VStr "2.5"))
             (startup no_sensors) in
  fst r = Returned 200 (status_body "success") /\
  snd r = calibrated (startup no_sensors) (py_max neg_ten (py_min ten lit_2_5)) /\
  stored_offset (snd r) = Some (py_max neg_ten (py_min ten lit_2_5)) /\
  in_range (py_max neg_ten (py_min ten lit_2_5)).
Proof.
  apply (set_calibration_numeric_string decimal_literal
           {[ "offset" := VStr "2.5" ]} (startup no_sensors) "2.5" lit_2_5).
  - apply lookup_singleton_eq.
  - vm_compute. reflexivity.
Defined.

(** ** The data route *)

Section Data.

Lemma mode_of_ready (w : world) (t : W1ThermSensor) (s : DigitalInputDevice) :
  temp_sensor w = Some t -> soil_sensor w = Some s -> mode_of w = Ready.
Proof. unfold mode_of. intros -> ->. reflexivity. Qed.

Lemma mode_of_fallback (w : world) :
  mode_of w = FallbackMode <-> temp_sensor w = None \/ soil_sensor w = None.
Proof.
  unfold mode_of.
  destruct (temp_sensor w), (soil_sensor w); simpl; split;
    solve [ auto | discriminate | intros [H|H]; discriminate H ].
Qed.

(** With the offset in place, the handler never raises and never writes. *)
Lemma get_sensor_data_response (env : readings) (w : world) (offset : float) :
  stored_offset w = Some offset ->
  get_sensor_data env w =
  (Returned 200
     (data_body (temperature_field env w offset) (is_wet_field env w) (VFloat offset)),
   w).
Proof.
  unfold stored_offset, get_sensor_data, temperature_field, is_wet_field,
    mode_of, getitem.
  intros ->.
  destruct (truthy (temp_sensor w) && truthy (soil_sensor w)); [|reflexivity].
  destruct (get_temperature env), (is_active env); reflexivity.
Qed.

Lemma get_sensor_data_fallback (env : readings) (w : world) (offset : float) :
  mode_of w = FallbackMode ->
  stored_offset w = Some offset ->
  get_sensor_data env w =
  (Returned 200 (data_body (VFloat twenty) (VBool false) (VFloat offset)), w).
Proof.
  intros Hmode Hoff. rewrite (get_sensor_data_response env w offset Hoff).
  unfold temperature_field, is_wet_field. rewrite Hmode. reflexivity.
Qed.

Lemma get_sensor_data_keeps_world (env : readings) (w : world) :
  snd (get_sensor_data env w) = w.
Proof.
  unfold get_sensor_data.
  destruct (if truthy (temp_sensor w) && truthy (soil_sensor w) then _ else _).
  destruct (getitem (state w) "calibration_offset"); reflexivity.
Qed.

End Data.

(** ** The running process *)

Section Process.

Variable float_of_str : string -> option float.

Lemma startup_offset (hw : hardware) : stored_offset (startup hw) = Some zero.
Proof.
  unfold startup, stored_offset.
  destruct (W1ThermSensor_init hw); [destruct (DigitalInputDevice_init hw _)|];
    reflexivity.
Qed.

Lemma in_range_zero : in_range zero.
Proof. split; reflexivity. Qed.

(** The start-up block leaves both handles set or both [None]. *)
Lemma startup_sensors (hw : hardware) :
  match W1ThermSensor_init hw, DigitalInputDevice_init hw SOIL_SENSOR_PIN with
  | Some t, Some s =>
      temp_sensor (startup hw) = Some t /\ soil_sensor (startup hw) = Some s
  | _, _ =>
      temp_sensor (startup hw) = None /\ soil_sensor (startup hw) = None
  end.
Proof.
  unfold startup.
  destruct (W1ThermSensor_init hw); [destruct (DigitalInputDevice_init hw _)|];
    split; reflexivity.
Qed.

(** No handler assigns to [temp_sensor] or [soil_sensor]. *)
Lemma handle_keeps_sensors (r : request) (w : world) :
  temp_sensor (snd (handle float_of_str r w)) = temp_sensor w /\
  soil_sensor (snd (handle float_of_str r w)) = soil_sensor w.
Proof.
  destruct r as [env|data]; simpl.
  - rewrite get_sensor_data_keeps_world. split; reflexivity.
  - destruct (set_calibration_cases float_of_str data w)
      as [-> | [[f ->] | [e ->]]]; split; reflexivity.
Qed.

Lemma handle_keeps_mode (r : request) (w : world) :
  mode_of (snd (handle float_of_str r w)) = mode_of w.
Proof.
  unfold mode_of. destruct (handle_keeps_sensors r w) as [-> ->]. reflexivity.
Qed.

(** Every handler keeps the stored offset present and within bounds. *)
Lemma handle_keeps_offset_in_range (r : request) (w : world) :
  (exists offset, stored_offset w = Some offset /\ in_range offset) ->
  exists offset,
    stored_offset (snd (handle float_of_str r w)) = Some offset /\ in_range offset.
Proof.
  intros Hw. destruct r as [env|data]; simpl.
  - rewrite get_sensor_data_keeps_world. exact Hw.
  - destruct (set_calibration_cases float_of_str data w)
      as [-> | [[f ->] | [e ->]]]; simpl; try exact Hw.
    eexists. split; [apply stored_offset_calibrated | apply clamp_in_range].
Qed.

Lemma reachable_offset_in_range (hw : hardware) (w : world) :
  reachable float_of_str hw w ->
  exists offset, stored_offset w = Some offset /\ in_range offset.
Proof.
  induction 1 as [|r w Hw IH].
  - exists zero. split; [apply startup_offset | apply in_range_zero].
  - apply handle_keeps_offset_in_range, IH.
Qed.

Lemma reachable_sensors (hw : hardware) (w : world) :
  reachable float_of_str hw w ->
  temp_sensor w = temp_sensor (startup hw) /\
  soil_sensor w = soil_sensor (startup hw).
Proof.
  induction 1 as [|r w Hw [IHt IHs]].
  - split; reflexivity.
  - destruct (handle_keeps_sensors r w) as [-> ->]. split; assumption.
Qed.

(** Serving a list of requests from the start leads to a reachable state. *)
Lemma reachable_serve_from (hw : hardware) (rs : list request) (w : world) :
  reachable float_of_str hw w -> reachable float_of_str hw (serve float_of_str rs w).
Proof.
  revert w. induction rs as [|r rs IH]; intros w Hw; simpl.
  - exact Hw.
  - apply IH. constructor. exact Hw.
Qed.

Lemma reachable_serve (hw : hardware) (rs : list request) :
  reachable float_of_str hw (serve float_of_str rs (startup hw)).
Proof. apply reachable_serve_from. constructor. Qed.

End Process.

(** ** Claims about GET /data *)

(** C3.  In fallback mode GET /data answers 200 with temperature 20.0 and
    is_wet false whatever the stored offset is: the offset is not added to
    the temperature, yet it is reported as calibration_offset. *)
Theorem fallback_reading_ignores_offset (env : readings) (w : world) (offset : float) :
  mode_of w = FallbackMode ->
  stored_offset w = Some offset ->
  get_sensor_data env w =
  (Returned 200 (data_body (VFloat twenty) (VBool false) (VFloat offset)), w).
Proof. apply get_sensor_data_fallback. Qed.

(** A process started without sensors and calibrated to 2.5 still reports
    20.0. *)
Lemma fallback_reading_ignores_offset_witness :
  let w := snd (set_calibration decimal_literal (offset_request (VStr "2.5"))
                  (startup no_sensors)) in
  let env := Readings (Some lit_22_3) (Some true) in
  mode_of w = FallbackMode /\
  stored_offset w = Some lit_2_5 /\
  get_sensor_data env w =
  (Returned 200 (data_body (VFloat twenty) (VBool false) (VFloat lit_2_5)), w).
Proof.
  cbv zeta. split; [reflexivity|]. split; [vm_compute; reflexivity|].
  apply (fallback_reading_ignores_offset (Readings (Some lit_22_3) (Some true))).
  - reflexivity.
  - vm_compute. reflexivity.
Defined.

(** C4.  In hardware mode, when both reads succeed, the temperature of the
    response is the raw reading plus the stored offset and is_wet is the
    negation of the raw moisture signal; with offset 0.0, raw temperature 22.3
    and an active moisture signal the response is
    [{"temperature": 22.3, "is_wet": false, "calibration_offset": 0.0}]. *)
Theorem ready_reading_adds_offset
    (env : readings) (w : world) (t : W1ThermSensor) (s : DigitalInputDevice)
    (raw_temp : float) (active : bool) (offset : float) :
  temp_sensor w = Some t ->
  soil_sensor w = Some s ->
  get_temperature env = Some raw_temp ->
  is_active env = Some active ->
  stored_offset w = Some offset ->
  get_sensor_data env w =
    (Returned 200
       (data_body (VFloat (add raw_temp offset)) (VBool (negb active)) (VFloat offset)),
     w) /\
  (raw_temp = lit_22_3 -> active = true -> offset = zero ->
   get_sensor_data env w =
     (Returned 200 (data_body (VFloat lit_22_3) (VBool false) (VFloat zero)), w)).
Proof.
  intros Ht Hs Hraw Hact Hoff.
  assert (Hresp : get_sensor_data env w =
    (Returned 200
       (data_body (VFloat (add raw_temp offset)) (VBool (negb active)) (VFloat offset)),
     w)).
  { rewrite (get_sensor_data_response env w offset Hoff).
    unfold temperature_field, is_wet_field.
    rewrite (mode_of_ready w t s Ht Hs), Hraw, Hact. reflexivity. }
  split; [exact Hresp|].
  intros -> -> ->. rewrite Hresp. reflexivity.
Qed.

(** The scenario of the specification on a freshly started process. *)
Lemma ready_reading_adds_offset_witness :
  let w := startup both_sensors in
  let env := Readings (Some lit_22_3) (Some true) in
  get_sensor_data env w =
  (Returned 200 (data_body (VFloat lit_22_3) (VBool false) (VFloat zero)), w).
Proof.
  cbv zeta.
  apply (ready_reading_adds_offset (Readings (Some lit_22_3) (Some true))
           (startup both_sensors) W1ThermSensor_obj
           (DigitalInputDevice_obj SOIL_SENSOR_PIN) lit_22_3 true zero);
    reflexivity.
Defined.

Section DataClaims.

Variable float_of_str : string -> option float.

(** C5.  In every state the process can reach, GET /data answers 200 and
    reports the stored offset; in hardware mode the temperature field is null
    exactly when the temperature read fails and otherwise the reading plus the
    offset, and the is_wet field is null exactly when the moisture read fails
    and otherwise the negated signal, each field following its own read
    only. *)
Theorem sensor_failure_is_local (hw : hardware) (w : world) (env : readings) :
  reachable float_of_str hw w ->
  exists offset temperature is_wet,
    stored_offset w = Some offset /\
    get_sensor_data env w =
      (Returned 200 (data_body temperature is_wet (VFloat offset)), w) /\
    http_status (fst (get_sensor_data env w)) = 200 /\
    (mode_of w = Ready ->
     temperature =
       match get_temperature env with
       | Some raw_temp => VFloat (add raw_temp offset)
       | None => VNone
       end /\
     is_wet =
       match is_active env with
       | Some active => VBool (negb active)
       | None => VNone
       end).
Proof.
  intros Hreach.
  destruct (reachable_offset_in_range float_of_str hw w Hreach) as (offset & Hoff & _).
  exists offset, (temperature_field env w offset), (is_wet_field env w).
  rewrite (get_sensor_data_response env w offset Hoff).
  split; [exact Hoff|]. split; [reflexivity|]. split; [reflexivity|].
  intros Hmode. unfold temperature_field, is_wet_field. rewrite Hmode.
  split; [destruct (get_temperature env) | destruct (is_active env)]; reflexivity.
Qed.

End DataClaims.

(** A failed temperature read next to a successful moisture read. *)
Lemma sensor_failure_is_local_witness :
  reachable decimal_literal both_sensors (startup both_sensors) /\
  get_sensor_data (Readings None (Some false)) (startup both_sensors) =
  (Returned 200 (data_body VNone (VBool true) (VFloat zero)), startup both_sensors).
Proof.
  split; [constructor|].
  destruct (sensor_failure_is_local decimal_literal both_sensors
              (startup both_sensors) (Readings None (Some false))
              (reach_start decimal_literal both_sensors))
    as (offset & temperature & is_wet & Hoff & Hresp & _ & Hfields).
  destruct (Hfields eq_refl) as [Ht Hw]. simpl in Ht, Hw.
  rewrite Hresp, Ht, Hw. vm_compute in Hoff.
  injection Hoff as <-. reflexivity.
Defined.

(** ** Claims about the process as a whole *)

Section ProcessClaims.

Variable float_of_str : string -> option float.

(** C6.  The stored calibration offset is 0.0 at start-up, and in every
    state the process can reach it is present and satisfies
    [-10.0 <= offset <= 10.0]; serving one more request, whichever it is and
    however it ends, keeps it so. *)
Theorem calibration_offset_bounded (hw : hardware) (w : world) (r : request) :
  reachable float_of_str hw w ->
  stored_offset (startup hw) = Some zero /\
  (exists offset, stored_offset w = Some offset /\ in_range offset) /\
  (exists offset,
     stored_offset (snd (handle float_of_str r w)) = Some offset /\ in_range offset).
Proof.
  intros Hreach. split; [apply startup_offset|].
  pose proof (reachable_offset_in_range float_of_str hw w Hreach) as Hw.
  split; [exact Hw|]. apply handle_keeps_offset_in_range, Hw.
Qed.

(** C8.  In every reachable state both sensor globals, and so the operating
    mode, are the ones the start-up block chose; serving a request, GET /data
    or POST /calibrate, never changes the mode. *)
Theorem mode_never_changes (hw : hardware) (w : world) (r : request) :
  reachable float_of_str hw w ->
  temp_sensor w = temp_sensor (startup hw) /\
  soil_sensor w = soil_sensor (startup hw) /\
  mode_of w = mode_of (startup hw) /\
  mode_of (snd (handle float_of_str r w)) = mode_of w.
Proof.
  intros Hreach.
  destruct (reachable_sensors float_of_str hw w Hreach) as [Ht Hs].
  repeat split; try assumption.
  - unfold mode_of. rewrite Ht, Hs. reflexivity.
  - apply handle_keeps_mode.
Qed.

(** C10.  When the initialisation of either sensor fails at start-up, both
    sensor globals are [None] in every reachable state, and every GET /data
    is answered from the fallback constants: temperature 20.0 and is_wet
    false, next to the stored offset. *)
Theorem fallback_is_all_or_nothing (hw : hardware) (w : world) (env : readings) :
  W1ThermSensor_init hw = None \/ DigitalInputDevice_init hw SOIL_SENSOR_PIN = None ->
  reachable float_of_str hw w ->
  temp_sensor w = None /\
  soil_sensor w = None /\
  exists offset,
    stored_offset w = Some offset /\
    get_sensor_data env w =
    (Returned 200 (data_body (VFloat twenty) (VBool false) (VFloat offset)), w).
Proof.
  intros Hfail Hreach.
  destruct (reachable_sensors float_of_str hw w Hreach) as [Ht Hs].
  assert (Hnone : temp_sensor (startup hw) = None /\ soil_sensor (startup hw) = None).
  { pose proof (startup_sensors hw) as Hstart.
    destruct (W1ThermSensor_init hw) as [t|];
      [destruct (DigitalInputDevice_init hw SOIL_SENSOR_PIN) as [s|]|];
      try exact Hstart.
    destruct Hfail as [Hfail|Hfail]; discriminate Hfail. }
  destruct Hnone as [Ht0 Hs0]. rewrite Ht0 in Ht. rewrite Hs0 in Hs.
  split; [exact Ht|]. split; [exact Hs|].
  destruct (reachable_offset_in_range float_of_str hw w Hreach) as (offset & Hoff & _).
  exists offset. split; [exact Hoff|].
  apply get_sensor_data_fallback; [|exact Hoff].
  apply mode_of_fallback. left. exact Ht.
Qed.

End ProcessClaims.

(** Three requests on a board with both sensors: an offset above the range,
    a reading, and an offset below the range sent as a string. *)
Lemma calibration_offset_bounded_witness :
  let rs := [ POST_calibrate (offset_request (VInt 15));
              GET_data (Readings (Some lit_22_3) None);
              POST_calibrate (offset_request (VStr "-25")) ] in
  let w := serve decimal_literal rs (startup both_sensors) in
  let r := POST_calibrate (offset_request (VFloat lit_22_3)) in
  reachable decimal_literal both_sensors w /\
  stored_offset w = Some neg_ten /\
  stored_offset (startup both_sensors) = Some zero /\
  (exists offset, stored_offset w = Some offset /\ in_range offset) /\
  (exists offset,
     stored_offset (snd (handle decimal_literal r w)) = Some offset /\
     in_range offset).
Proof.
  cbv zeta. split; [apply reachable_serve|]. split; [vm_compute; reflexivity|].
  apply calibration_offset_bounded. apply reachable_serve.
Defined.

(** A board whose sensors both answer stays in hardware mode across a
    calibration. *)
Lemma mode_never_changes_witness :
  let w := serve decimal_literal
             [ POST_calibrate (offset_request (VFloat lit_2_5)) ]
             (startup both_sensors) in
  let r := GET_data (Readings None None) in
  reachable decimal_literal both_sensors w /\
  mode_of (startup both_sensors) = Ready /\
  temp_sensor w = temp_sensor (startup both_sensors) /\
  soil_sensor w = soil_sensor (startup both_sensors) /\
  mode_of w = mode_of (startup both_sensors) /\
  mode_of (snd (handle decimal_literal r w)) = mode_of w.
Proof.
  cbv zeta. split; [apply reachable_serve|]. split; [reflexivity|].
  apply mode_never_changes. apply reachable_serve.
Defined.

(** A board whose temperature sensor initialises while the soil sensor does
    not: both globals end up [None]. *)
Lemma fallback_is_all_or_nothing_witness :
  let hw := Hardware (Some W1ThermSensor_obj) (fun _ => None) in
  let w := serve decimal_literal
             [ POST_calibrate (offset_request (VFloat lit_2_5)) ] (startup hw) in
  let env := Readings (Some lit_22_3) (Some true) in
  (W1ThermSensor_init hw = None \/ DigitalInputDevice_init hw SOIL_SENSOR_PIN = None) /\
  reachable decimal_literal hw w /\
  temp_sensor w = None /\
  soil_sensor w = None /\
  exists offset,
    stored_offset w = Some offset /\
    get_sensor_data env w =
    (Returned 200 (data_body (VFloat twenty) (VBool false) (VFloat offset)), w).
Proof.
  cbv zeta. split; [right; reflexivity|]. split; [apply reachable_serve|].
  apply (fallback_is_all_or_nothing decimal_literal
           (Hardware (Some W1ThermSensor_obj) (fun _ => None))).
  - right. reflexivity.
  - apply reachable_serve.
Defined.

(** ** Scenarios of the specification *)

(** [{"offset": 15}] is stored as 10.0 and [{"offset": -25}] as -10.0, and
    GET /data reports them. *)
Example calibrate_15_reports_10 :
  let w := snd (set_calibration decimal_literal (offset_request (VInt 15))
                  (startup both_sensors)) in
  get_sensor_data (Readings None None) w =
  (Returned 200 (data_body VNone VNone (VFloat ten)), w).
Proof. vm_compute. reflexivity. Qed.

Example calibrate_minus_25_reports_minus_10 :
  let w := snd (set_calibration decimal_literal (offset_request (VInt (-25)))
                  (startup both_sensors)) in
  get_sensor_data (Readings None None) w =
  (Returned 200 (data_body VNone VNone (VFloat neg_ten)), w).
Proof. vm_compute. reflexivity. Qed.

(** After calibrating to 2.5, a raw temperature of 22.3 is reported as 24.8. *)
Example calibrate_2_5_then_read :
  let w := snd (set_calibration decimal_literal (offset_request (VFloat lit_2_5))
                  (startup both_sensors)) in
  get_sensor_data (Readings (Some lit_22_3) (Some true)) w =
  (Returned 200 (data_body (VFloat lit_24_8) (VBool false) (VFloat lit_2_5)), w).
Proof. vm_compute. reflexivity. Qed.

(** A NaN offset, which a JSON body can carry, is stored as 10.0. *)
Example calibrate_nan_stores_10 :
  stored_offset (snd (set_calibration decimal_literal (offset_request (VFloat S754_nan))
                        (startup no_sensors))) = Some ten.
Proof. vm_compute. reflexivity. Qed.

(** Offsets that [float] cannot convert make the handler raise: the request
    is answered with 500 and the stored offset stays as it was. *)
Example calibrate_list_raises (float_of_str : string -> option float) (w : world) :
  set_calibration float_of_str (offset_request (VList [VInt 1])) w =
  (Raised TypeError, w).
Proof.
  apply (set_calibration_raises _ _ _ (VList [VInt 1]));
    [apply lookup_singleton_eq | discriminate | reflexivity].
Qed.

(** A body that is not a JSON object has no [get] method. *)
Example calibrate_non_object_raises (float_of_str : string -> option float) (w : world) :
  set_calibration float_of_str (Parsed (VList [])) w = (Raised AttributeError, w).
Proof. reflexivity. Qed.

(** * Further properties of the handlers *)

(** ** The clamp as a function on floats *)

Section ClampFacts.

(** Comparing equal to a finite non-zero float means being that float. *)
Lemma SFcompare_eq_finite (a : float) (s : bool) (m : positive) (e : Z) :
  SFcompare a (S754_finite s m e) = Some Eq -> a = S754_finite s m e.
Proof.
  destruct a as [sa|sa| |sa ma ea]; simpl;
    try destruct sa; try destruct s; try discriminate;
    (destruct (ea ?= e)%Z eqn:He; try discriminate;
     apply Z.compare_eq in He; subst ea;
     destruct (Pos.compare_cont Eq ma m) eqn:Hm; try discriminate;
     apply Pos.compare_eq in Hm; subst ma; reflexivity).
Qed.

Lemma clamp_fixed (f : float) :
  in_range f -> py_max neg_ten (py_min ten f) = f.
Proof.
  unfold in_range, le, SFleb. intros [Hlo Hhi].
  rewrite (SFcompare_antisym f neg_ten) in Hlo.
  unfold py_max, py_min, lt, gt, SFltb.
  destruct (SFcompare f ten) as [[]|] eqn:Hten; try discriminate Hhi.
  - apply SFcompare_eq_finite in Hten. subst f. reflexivity.
  - destruct (SFcompare f neg_ten) as [[]|] eqn:Hneg; try discriminate Hlo.
    + apply SFcompare_eq_finite in Hneg. subst f. reflexivity.
    + reflexivity.
Qed.

Lemma in_range_finite (f : float) : in_range f -> is_finite f = true.
Proof.
  unfold in_range, le, SFleb. intros [Hlo Hhi].
  destruct f as [s|[]| |s m e]; try reflexivity; simpl in *; discriminate.
Qed.

Lemma clamp_idempotent (f : float) :
  py_max neg_ten (py_min ten (py_max neg_ten (py_min ten f))) =
  py_max neg_ten (py_min ten f).
Proof. apply clamp_fixed, clamp_in_range. Qed.

(** What is not below 10.0, NaN included, becomes 10.0; what is below 10.0
    but not above -10.0 becomes -10.0. *)
Lemma clamp_high (f : float) :
  lt f ten = false -> py_max neg_ten (py_min ten f) = ten.
Proof. unfold py_max, py_min. intros ->. reflexivity. Qed.

Lemma clamp_low (f : float) :
  lt f ten = true -> gt f neg_ten = false ->
  py_max neg_ten (py_min ten f) = neg_ten.
Proof. unfold py_max, py_min. intros -> ->. reflexivity. Qed.

(** Adding the start-up offset 0.0 gives the reading back, except for the
    reading -0.0. *)
Lemma add_zero (raw_temp : float) :
  raw_temp <> S754_zero true -> add raw_temp zero = raw_temp.
Proof.
  destruct raw_temp as [[]|s| |s m e]; try reflexivity.
  intros H. contradiction H. reflexivity.
Qed.

End ClampFacts.

(** ** Calibration requests, one after the other *)

Section CalibrationSequences.

Variable float_of_str : string -> option float.

(** A request that is answered with 200 stores a value that depends on the
    request alone. *)
Lemma set_calibration_success_inv (request : json_request) (w : world) :
  http_status (fst (set_calibration float_of_str request w)) = 200 ->
  exists f, forall w',
    set_calibration float_of_str request w' =
    (Returned 200 (status_body "success"),
     calibrated w' (py_max neg_ten (py_min ten f))).
Proof.
  destruct request as [data| |]; try discriminate.
  destruct data as [| | | | | |d]; try discriminate.
  rewrite set_calibration_dict.
  destruct (default VNone (d !! "offset")) as [|b|z|f|s|l|d'] eqn:Hd;
    try discriminate;
    match goal with
    | |- context [py_float ?p ?v] => destruct (py_float p v) as [f'|e] eqn:Hf
    end;
    first
      [ intros H; destruct (py_float_raises float_of_str _ _ Hf) as [-> | [-> | ->]];
        discriminate H
      | intros _; exists f'; intros w'; rewrite set_calibration_dict, Hd, Hf;
        reflexivity ].
Qed.

Lemma calibrated_calibrated (w : world) (f g : float) :
  calibrated (calibrated w f) g = calibrated w g.
Proof. unfold calibrated. simpl. rewrite insert_insert_eq. reflexivity. Qed.

Lemma calibrated_same (w : world) (f : float) :
  stored_offset w = Some f -> calibrated w f = w.
Proof.
  unfold stored_offset, calibrated. intros H.
  rewrite (insert_id _ _ _ H). destruct w; reflexivity.
Qed.

(** In a reachable state the dictionary [state] has the single key
    ['calibration_offset']. *)
Lemma reachable_state_singleton (hw : hardware) (w : world) :
  reachable float_of_str hw w ->
  exists offset,
    state w = {[ "calibration_offset" := offset ]} /\ in_range offset.
Proof.
  induction 1 as [|r w Hw (offset & Hst & Hin)].
  - exists zero. split; [|apply in_range_zero].
    unfold startup.
    destruct (W1ThermSensor_init hw); [destruct (DigitalInputDevice_init hw _)|];
      reflexivity.
  - destruct r as [env|data]; simpl.
    + rewrite get_sensor_data_keeps_world. exists offset. split; assumption.
    + destruct (set_calibration_cases float_of_str data w)
        as [-> | [[f ->] | [e ->]]]; simpl;
        try (exists offset; split; assumption).
      eexists. split; [|apply clamp_in_range].
      rewrite Hst. apply insert_singleton_eq.
Qed.

End CalibrationSequences.

Section CalibrationExtras.

Variable float_of_str : string -> option float.

Lemma startup_state (hw : hardware) :
  state (startup hw) = {[ "calibration_offset" := zero ]}.
Proof.
  unfold startup.
  destruct (W1ThermSensor_init hw); [destruct (DigitalInputDevice_init hw _)|];
    reflexivity.
Qed.

(** X1.  Sending back the offset that GET /data reports changes nothing: in
    every reachable state, POST /calibrate with the stored offset as a JSON
    float is answered with success and leaves the globals as they are. *)
Theorem calibrate_stored_offset_again (hw : hardware) (w : world) (offset : float) :
  reachable float_of_str hw w ->
  stored_offset w = Some offset ->
  set_calibration float_of_str (offset_request (VFloat offset)) w =
  (Returned 200 (status_body "success"), w).
Proof.
  intros Hreach Hoff. rewrite set_calibration_float.
  destruct (reachable_offset_in_range float_of_str hw w Hreach) as (o & Ho & Hin).
  rewrite Hoff in Ho. injection Ho as <-.
  rewrite (clamp_fixed offset Hin), (calibrated_same w offset Hoff). reflexivity.
Qed.

(** X2.  Calibrations do not accumulate: when a request is answered with
    200, its response and the globals after it are the same whether or not
    another calibrate request, successful or not, was served just before. *)
Theorem calibrate_last_write_wins (first second : json_request) (w : world) :
  http_status (fst (set_calibration float_of_str second w)) = 200 ->
  set_calibration float_of_str second
    (snd (set_calibration float_of_str first w)) =
  set_calibration float_of_str second w.
Proof.
  intros Hok. destruct (set_calibration_success_inv float_of_str second w Hok) as [g Hg].
  rewrite !Hg.
  destruct (set_calibration_cases float_of_str first w)
    as [-> | [[f ->] | [e ->]]]; simpl; try reflexivity.
  rewrite calibrated_calibrated. reflexivity.
Qed.

(** X3.  The body [{"offset": 0}], which the Reset button of the page sends,
    brings every reachable state back to the globals of start-up. *)
Theorem calibrate_zero_restores_startup (hw : hardware) (w : world) :
  reachable float_of_str hw w ->
  set_calibration float_of_str (offset_request (VInt 0)) w =
  (Returned 200 (status_body "success"), startup hw).
Proof.
  intros Hreach. rewrite (set_calibration_int float_of_str w 0 zero eq_refl).
  f_equal.
  destruct (reachable_sensors float_of_str hw w Hreach) as [Ht Hs].
  destruct (reachable_state_singleton float_of_str hw w Hreach) as (o & Hst & _).
  pose proof (startup_state hw) as H0.
  unfold calibrated. rewrite Ht, Hs, Hst, insert_singleton_eq.
  change (py_max neg_ten (py_min ten zero)) with zero.
  rewrite <- H0. destruct (startup hw); reflexivity.
Qed.

(** X4.  In every reachable state the dictionary [state] holds exactly one
    key, ['calibration_offset']: no handler adds or deletes a key. *)
Theorem state_has_single_key (hw : hardware) (w : world) :
  reachable float_of_str hw w ->
  dom (state w) = {[ "calibration_offset" ]} /\
  forall k, k <> "calibration_offset" -> state w !! k = None.
Proof.
  intros Hreach.
  destruct (reachable_state_singleton float_of_str hw w Hreach) as (o & -> & _).
  split.
  - apply dom_singleton_L.
  - intros k Hk. apply lookup_singleton_ne. congruence.
Qed.

(** X5.  In every reachable state the stored offset is a finite number,
    neither NaN nor an infinity, whatever offsets were requested. *)
Theorem stored_offset_is_finite (hw : hardware) (w : world) :
  reachable float_of_str hw w ->
  exists offset, stored_offset w = Some offset /\ is_finite offset = true.
Proof.
  intros Hreach.
  destruct (reachable_offset_in_range float_of_str hw w Hreach) as (o & Ho & Hin).
  exists o. split; [exact Ho | apply in_range_finite, Hin].
Qed.

(** X6.  GET /data requests leave no trace: the globals after serving a list
    of requests are those after serving only its calibrate requests. *)
Theorem serve_ignores_reads (rs : list request) (w : world) :
  serve float_of_str rs w = serve float_of_str (List.filter is_calibrate rs) w.
Proof.
  revert w. induction rs as [|r rs IH]; intros w; [reflexivity|].
  destruct r as [env|data]; simpl.
  - rewrite get_sensor_data_keeps_world. apply IH.
  - apply IH.
Qed.

(** X7.  A float offset that is not strictly between -10.0 and 10.0 is
    stored as the bound on its side; NaN, which compares below nothing, is
    stored as 10.0. *)
Theorem calibrate_out_of_range_saturates (w : world) (f : float) :
  lt f ten = false \/ gt f neg_ten = false ->
  set_calibration float_of_str (offset_request (VFloat f)) w =
  (Returned 200 (status_body "success"),
   calibrated w (if lt f ten then neg_ten else ten)).
Proof.
  intros H. rewrite set_calibration_float.
  destruct (lt f ten) eqn:Hlt.
  - destruct H as [H|H]; [discriminate H|].
    rewrite (clamp_low f Hlt H). reflexivity.
  - rewrite (clamp_high f Hlt). reflexivity.
Qed.

(** X10.  A JSON boolean offset is not rejected: [true] is stored as 1.0 and
    [false] as 0.0. *)
Theorem calibrate_bool_offset (w : world) (b : bool) :
  set_calibration float_of_str (offset_request (VBool b)) w =
  (Returned 200 (status_body "success"), calibrated w (if b then one else zero)).
Proof.
  unfold offset_request.
  rewrite (set_calibration_ok float_of_str _ w (VBool b) (if b then one else zero)
             (lookup_singleton_eq _ _) eq_refl).
  destruct b; reflexivity.
Qed.

End CalibrationExtras.

Section ReadExtras.

Variable float_of_str : string -> option float.

(** X8.  While the stored offset is 0.0, as it is after start-up and after
    Reset, GET /data in hardware mode reports the raw temperature reading
    itself (a reading of -0.0 excepted, which is reported as 0.0). *)
Theorem zero_offset_reports_raw_reading
    (env : readings) (w : world) (t : W1ThermSensor) (s : DigitalInputDevice)
    (raw_temp : float) :
  temp_sensor w = Some t ->
  soil_sensor w = Some s ->
  stored_offset w = Some zero ->
  get_temperature env = Some raw_temp ->
  raw_temp <> S754_zero true ->
  get_sensor_data env w =
  (Returned 200
     (data_body (VFloat raw_temp) (opt_bool (negb <$> is_active env)) (VFloat zero)),
   w).
Proof.
  intros Ht Hs Hoff Hraw Hnz.
  rewrite (get_sensor_data_response env w zero Hoff).
  unfold temperature_field, is_wet_field.
  rewrite (mode_of_ready w t s Ht Hs), Hraw. simpl.
  rewrite (add_zero raw_temp Hnz). reflexivity.
Qed.

(** X9.  The process is in hardware mode exactly when both driver
    constructors returned at start-up, and in every reachable state the two
    sensor globals are both set or both [None]. *)
Theorem mode_ready_iff_both_initialised (hw : hardware) (w : world) :
  reachable float_of_str hw w ->
  (mode_of w = Ready <->
   is_Some (W1ThermSensor_init hw) /\
   is_Some (DigitalInputDevice_init hw SOIL_SENSOR_PIN)) /\
  (temp_sensor w = None <-> soil_sensor w = None).
Proof.
  intros Hreach.
  destruct (reachable_sensors float_of_str hw w Hreach) as [Ht Hs].
  pose proof (startup_sensors hw) as Hstart.
  unfold mode_of. rewrite Ht, Hs.
  destruct (W1ThermSensor_init hw) as [t|];
    [destruct (DigitalInputDevice_init hw SOIL_SENSOR_PIN) as [s|]|];
    destruct Hstart as [-> ->]; simpl;
    (split; [split; [intros H | intros [H1 H2]] | split; intros H]);
    first [ reflexivity | discriminate
          | split; eexists; reflexivity
          | exfalso; apply is_Some_None in H1; exact H1
          | exfalso; apply is_Some_None in H2; exact H2 ].
Qed.

(** X11.  POST /calibrate is answered with 500 exactly when the body is not
    a JSON object, which has no [get], or when its [offset] is present, not
    [null], and [float(offset)] raises. *)
Theorem set_calibration_500_iff (data : pyval) (w : world) :
  http_status (fst (set_calibration float_of_str (Parsed data) w)) = 500 <->
  (forall d, data <> VDict d) \/
  (exists d v e,
     data = VDict d /\ d !! "offset" = Some v /\ v <> VNone /\
     py_float float_of_str v = Raise e).
Proof.
  split.
  - destruct data as [| | | | | |d]; try (intros _; left; intros d'; discriminate).
    rewrite set_calibration_dict.
    destruct (d !! "offset") as [v|] eqn:Hd; [|discriminate].
    change (default VNone (Some v)) with v.
    destruct v as [|b|z|f|s|l|d']; try discriminate;
      match goal with
      | |- context [py_float ?p ?v] => destruct (py_float p v) as [f'|e] eqn:Hf
      end; try discriminate;
      intros _; right; eexists d, _, e; repeat split; try eassumption;
      discriminate.
  - intros [Hnot | (d & v & e & -> & Hd & Hv & Hf)].
    + destruct data as [| | | | | |d]; try reflexivity.
      exfalso. apply (Hnot d). reflexivity.
    + rewrite (set_calibration_raises float_of_str d w v e Hd Hv Hf).
      destruct (py_float_raises float_of_str v e Hf) as [-> | [-> | ->]];
        reflexivity.
Qed.

(** X12.  A reading that follows a successful calibration uses the new
    offset: in hardware mode GET /data then reports the raw temperature plus
    the clamp of the requested value, and that clamp as calibration_offset,
    whatever was stored before. *)
Theorem calibrate_then_read
    (d : gmap string pyval) (v : pyval) (f : float) (env : readings) (w : world)
    (t : W1ThermSensor) (s : DigitalInputDevice) (raw_temp : float) :
  d !! "offset" = Some v ->
  py_float float_of_str v = Ok f ->
  temp_sensor w = Some t ->
  soil_sensor w = Some s ->
  get_temperature env = Some raw_temp ->
  let offset := py_max neg_ten (py_min ten f) in
  let w' := snd (set_calibration float_of_str (Parsed (VDict d)) w) in
  get_sensor_data env w' =
  (Returned 200
     (data_body (VFloat (add raw_temp offset)) (opt_bool (negb <$> is_active env))
        (VFloat offset)),
   w').
Proof.
  intros Hd Hf Ht Hs Hraw. cbv zeta.
  rewrite (set_calibration_ok float_of_str d w v f Hd Hf). cbn [snd].
  rewrite (get_sensor_data_response env _ _ (stored_offset_calibrated w _)).
  unfold temperature_field, is_wet_field.
  rewrite (mode_of_ready (calibrated w _) t s Ht Hs), Hraw. reflexivity.
Qed.

End ReadExtras.

(** ** Runs of the further properties on concrete requests *)

Lemma calibrate_stored_offset_again_witness :
  let w := serve decimal_literal
             [ POST_calibrate (offset_request (VStr "2.5")) ] (startup both_sensors) in
  reachable decimal_literal both_sensors w /\
  stored_offset w = Some lit_2_5 /\
  set_calibration decimal_literal (offset_request (VFloat lit_2_5)) w =
  (Returned 200 (status_body "success"), w).
Proof.
  cbv zeta. split; [apply reachable_serve|]. split; [vm_compute; reflexivity|].
  apply (calibrate_stored_offset_again decimal_literal both_sensors).
  - apply reachable_serve.
  - vm_compute. reflexivity.
Defined.

Lemma calibrate_last_write_wins_witness :
  let first := offset_request (VInt 15) in
  let second := offset_request (VStr "2.5") in
  let w := startup no_sensors in
  http_status (fst (set_calibration decimal_literal second w)) = 200 /\
  set_calibration decimal_literal second
    (snd (set_calibration decimal_literal first w)) =
  set_calibration decimal_literal second w.
Proof.
  cbv zeta. split; [vm_compute; reflexivity|].
  apply calibrate_last_write_wins. vm_compute. reflexivity.
Defined.

Lemma calibrate_zero_restores_startup_witness :
  let w := serve decimal_literal
             [ POST_calibrate (offset_request (VInt (-25)));
               GET_data (Readings (Some lit_22_3) (Some false)) ]
             (startup both_sensors) in
  reachable decimal_literal both_sensors w /\
  stored_offset w = Some neg_ten /\
  set_calibration decimal_literal (offset_request (VInt 0)) w =
  (Returned 200 (status_body "success"), startup both_sensors).
Proof.
  cbv zeta. split; [apply reachable_serve|]. split; [vm_compute; reflexivity|].
  apply calibrate_zero_restores_startup. apply reachable_serve.
Defined.

Lemma state_has_single_key_witness :
  let w := serve decimal_literal
             [ POST_calibrate (offset_request (VFloat lit_2_5)) ] (startup no_sensors) in
  reachable decimal_literal no_sensors w /\
  dom (state w) = {[ "calibration_offset" ]} /\
  forall k, k <> "calibration_offset" -> state w !! k = None.
Proof.
  cbv zeta. split; [apply reachable_serve|].
  apply (state_has_single_key decimal_literal no_sensors). apply reachable_serve.
Defined.

Lemma stored_offset_is_finite_witness :
  let w := serve decimal_literal
             [ POST_calibrate (offset_request (VFloat S754_nan)) ] (startup no_sensors) in
  reachable decimal_literal no_sensors w /\
  exists offset, stored_offset w = Some offset /\ is_finite offset = true.
Proof.
  cbv zeta. split; [apply reachable_serve|].
  apply (stored_offset_is_finite decimal_literal no_sensors). apply reachable_serve.
Defined.

(** NaN is stored as 10.0. *)
Lemma calibrate_out_of_range_saturates_witness :
  (lt S754_nan ten = false \/ gt S754_nan neg_ten = false) /\
  set_calibration decimal_literal (offset_request (VFloat S754_nan))
    (startup no_sensors) =
  (Returned 200 (status_body "success"), calibrated (startup no_sensors) ten).
Proof.
  split; [left; reflexivity|].
  apply (calibrate_out_of_range_saturates decimal_literal (startup no_sensors) S754_nan).
  left. reflexivity.
Defined.

Lemma zero_offset_reports_raw_reading_witness :
  let env := Readings (Some lit_22_3) None in
  let w := startup both_sensors in
  lit_22_3 <> S754_zero true /\
  get_sensor_data env w =
  (Returned 200 (data_body (VFloat lit_22_3) VNone (VFloat zero)), w).
Proof.
  cbv zeta. split; [discriminate|].
  apply (zero_offset_reports_raw_reading (Readings (Some lit_22_3) None)
           (startup both_sensors) W1ThermSensor_obj
           (DigitalInputDevice_obj SOIL_SENSOR_PIN) lit_22_3);
    first [reflexivity | discriminate].
Defined.

Lemma mode_ready_iff_both_initialised_witness :
  let hw := Hardware (Some W1ThermSensor_obj) (fun _ => None) in
  let w := serve decimal_literal [ GET_data (Readings None None) ] (startup hw) in
  reachable decimal_literal hw w /\
  (mode_of w = Ready <->
   is_Some (W1ThermSensor_init hw) /\
   is_Some (DigitalInputDevice_init hw SOIL_SENSOR_PIN)) /\
  (temp_sensor w = None <-> soil_sensor w = None).
Proof.
  cbv zeta. split; [apply reachable_serve|].
  apply (mode_ready_iff_both_initialised decimal_literal
           (Hardware (Some W1ThermSensor_obj) (fun _ => None))).
  apply reachable_serve.
Defined.

(** Calibrating to the string "2.5" and then reading 22.3 reports 24.8. *)
Lemma calibrate_then_read_witness :
  let env := Readings (Some lit_22_3) (Some true) in
  let w' := snd (set_calibration decimal_literal (offset_request (VStr "2.5"))
                   (startup both_sensors)) in
  get_sensor_data env w' =
  (Returned 200 (data_body (VFloat lit_24_8) (VBool false) (VFloat lit_2_5)), w').
Proof.
  cbv zeta.
  exact (calibrate_then_read decimal_literal {[ "offset" := VStr "2.5" ]}
           (VStr "2.5") lit_2_5 (Readings (Some lit_22_3) (Some true))
           (startup both_sensors) W1ThermSensor_obj
           (DigitalInputDevice_obj SOIL_SENSOR_PIN) lit_22_3
           (lookup_singleton_eq _ _) eq_refl eq_refl eq_refl eq_refl).
Defined.

(** * Properties of the page's script *)

Section ScriptFacts.

Variable toFixed1 : float -> string.
Variable to_string : float -> string.

Lemma classList_remove_spec (tokens classes : list string) (c : string) :
  c ∈ JS.classList_remove tokens classes <-> c ∈ classes /\ c ∉ tokens.
Proof.
  unfold JS.classList_remove.
  rewrite !list_elem_of_In, List.filter_In, <- !list_elem_of_In.
  rewrite negb_true_iff, bool_decide_eq_false. reflexivity.
Qed.

Lemma classList_add_spec (tokens classes : list string) (c : string) :
  c ∈ JS.classList_add tokens classes <-> c ∈ classes \/ c ∈ tokens.
Proof.
  unfold JS.classList_add. revert classes.
  induction tokens as [|t tokens IH]; intros classes; simpl.
  - rewrite elem_of_nil. tauto.
  - rewrite IH, elem_of_cons. case_bool_decide as Ht.
    + split; [tauto|]. intros [H|[->|H]]; auto.
    + rewrite elem_of_app, list_elem_of_singleton. tauto.
Qed.

Lemma data_body_lookup (temperature is_wet calibration_offset : pyval) :
  let d : gmap string pyval :=
    {[ "temperature" := temperature; "is_wet" := is_wet;
       "calibration_offset" := calibration_offset ]} in
  d !! "temperature" = Some temperature /\
  d !! "is_wet" = Some is_wet /\
  d !! "calibration_offset" = Some calibration_offset.
Proof. cbv zeta. repeat split; by simplify_map_eq. Qed.

(** The text of a GET /data body is JSON exactly when its temperature and
    its offset are finite. *)
Lemma json_valid_data_body
    (temperature : option float) (is_wet : option bool) (offset : float) :
  JS.json_valid (data_body (opt_float temperature) (opt_bool is_wet) (VFloat offset)) =
  default true (is_finite <$> temperature) && is_finite offset.
Proof.
  destruct temperature as [t|], is_wet as [[]|]; vm_compute;
    repeat match goal with
           | |- context [match ?f with S754_zero _ => _ | _ => _ end] => destruct f
           end; reflexivity.
Qed.

(** Bounds of the number written into the temperature bar. *)
Lemma fill_bounds (p : float) :
  let r := JS.Math_max zero (JS.Math_min JS.hundred p) in
  (p = S754_nan /\ r = S754_nan) \/
  (le zero r = true /\ le r JS.hundred = true).
Proof.
  cbv zeta. unfold JS.Math_min.
  destruct (SFcompare JS.hundred p) as [[]|] eqn:Hmin.
  - right. split; reflexivity.
  - right. split; reflexivity.
  - unfold JS.Math_max.
    destruct (SFcompare zero p) as [[]|] eqn:Hmax.
    + right. destruct p; split; reflexivity.
    + right. unfold le, SFleb. rewrite Hmax.
      rewrite (SFcompare_antisym JS.hundred p), Hmin. split; reflexivity.
    + right. split; reflexivity.
    + destruct p; try discriminate Hmax. discriminate Hmin.
  - left. destruct p; try discriminate Hmin. split; reflexivity.
Qed.

(** What [updateUI] does with a body of the shape GET /data sends. *)
Lemma updateUI_data_body
    (temperature : option float) (is_wet : option bool) (offset : float) (p : JS.page) :
  let p1 :=
    match temperature with
    | Some t =>
        JS.set_temperature (toFixed1 t ++ "°C")
          (to_string (JS.fill_percentage t) ++ "%") p
    | None => p
    end in
  let cleared :=
    JS.classList_remove
      ["border-green-500"; "bg-green-50"; "border-red-500"; "bg-red-50"]
      (JS.moistureBox_classList p) in
  let p2 :=
    if default false is_wet then
      JS.set_moistureBox (JS.classList_add ["border-green-500"; "bg-green-50"] cleared)
        (JS.set_moistureStatus "Wet" "text-xl font-bold text-green-600" p1)
    else
      JS.set_moistureBox (JS.classList_add ["border-red-500"; "bg-red-50"] cleared)
        (JS.set_moistureStatus "Dry" "text-xl font-bold text-red-600" p1) in
  JS.updateUI toFixed1 to_string
    (data_body (opt_float temperature) (opt_bool is_wet) (VFloat offset)) p =
  (JS.set_calibration_display (toFixed1 offset ++ "°C") (to_string offset) p2, None).
Proof.
  cbv zeta.
  destruct (data_body_lookup (opt_float temperature) (opt_bool is_wet) (VFloat offset))
    as (Ht & Hw & Hc).
  unfold JS.updateUI, JS.update_temperature, JS.update_moisture,
    JS.update_calibration, data_body, JS.prop.
  rewrite Ht, Hw, Hc.
  destruct temperature as [t|], is_wet as [[]|]; reflexivity.
Qed.

End ScriptFacts.

Section ScriptExtras.

Variable toFixed1 : float -> string.
Variable to_string : float -> string.

Lemma get_sensor_data_reported (env : readings) (w : world) (offset : float) :
  stored_offset w = Some offset ->
  get_sensor_data env w =
  (Returned 200
     (data_body (opt_float (reported_temperature env w offset))
        (opt_bool (reported_is_wet env w)) (VFloat offset)),
   w).
Proof.
  intros Hoff. rewrite (get_sensor_data_response env w offset Hoff).
  unfold temperature_field, is_wet_field, reported_temperature, reported_is_wet.
  destruct (mode_of w); reflexivity.
Qed.

(** X13.  The number written into the width of the temperature bar lies
    between 0 and 100 for every temperature, unless the percentage is NaN, in
    which case NaN is written. *)
Theorem fill_percentage_bounded (temperature : float) :
  (JS.percentage temperature = S754_nan /\
   JS.fill_percentage temperature = S754_nan) \/
  (le zero (JS.fill_percentage temperature) = true /\
   le (JS.fill_percentage temperature) JS.hundred = true).
Proof. apply fill_bounds. Qed.

(** X14.  Whatever classes the moisture box had, after [updateUI] on a JSON
    object whose temperature is [null] or a number it carries the two green
    classes exactly when [data.is_wet] is truthy and the two red classes
    exactly when it is not, the label reads "Wet" or "Dry" accordingly, and
    every other class is kept. *)
Theorem updateUI_moisture_classes
    (d : gmap string pyval) (p : JS.page) (c : string) :
  d !! "temperature" = Some VNone \/ is_Some (d !! "temperature") /\
    json_number (default VNone (d !! "temperature")) = true ->
  let p' := fst (JS.updateUI toFixed1 to_string (VDict d) p) in
  let wet := JS.to_boolean (d !! "is_wet") in
  JS.moistureStatus_textContent p' = (if wet then "Wet" else "Dry") /\
  (c ∈ ["border-green-500"; "bg-green-50"] ->
   (c ∈ JS.moistureBox_classList p' <-> wet = true)) /\
  (c ∈ ["border-red-500"; "bg-red-50"] ->
   (c ∈ JS.moistureBox_classList p' <-> wet = false)) /\
  (c ∉ ["border-green-500"; "bg-green-50"; "border-red-500"; "bg-red-50"] ->
   (c ∈ JS.moistureBox_classList p' <-> c ∈ JS.moistureBox_classList p)).
Proof.
  intros Htemp. cbv zeta.
  set (cleared := JS.classList_remove
         ["border-green-500"; "bg-green-50"; "border-red-500"; "bg-red-50"]
         (JS.moistureBox_classList p)).
  assert (Hfields :
    JS.moistureStatus_textContent (fst (JS.updateUI toFixed1 to_string (VDict d) p)) =
      (if JS.to_boolean (d !! "is_wet") then "Wet" else "Dry") /\
    JS.moistureBox_classList (fst (JS.updateUI toFixed1 to_string (VDict d) p)) =
      JS.classList_add
        (if JS.to_boolean (d !! "is_wet")
         then ["border-green-500"; "bg-green-50"]
         else ["border-red-500"; "bg-red-50"]) cleared).
  { unfold JS.updateUI, JS.update_temperature, JS.update_moisture,
      JS.update_calibration, JS.prop. subst cleared.
    destruct Htemp as [-> | [[v Hv] Hnum]].
    - simpl. destruct (JS.to_boolean (d !! "is_wet")); simpl;
        destruct (JS.number (d !! "calibration_offset")); split; reflexivity.
    - rewrite Hv in *. simpl in Hnum.
      destruct v; try discriminate Hnum; simpl;
        destruct (JS.to_boolean (d !! "is_wet")); simpl;
        destruct (JS.number (d !! "calibration_offset")); split; reflexivity. }
  destruct Hfields as [-> ->].
  split; [reflexivity|].
  rewrite !classList_add_spec. subst cleared.
  rewrite !classList_remove_spec.
  destruct (JS.to_boolean (d !! "is_wet")); set_solver.
Qed.

End ScriptExtras.

Section PageAndServer.

Variable float_of_str : string -> option float.
Variable toFixed1 : float -> string.
Variable to_string : float -> string.

(** X15.  In a reachable state, when the temperature that GET /data reports
    is [null] or a finite number, the text of the response parses back to its
    body, [updateUI] runs on it to its end without throwing, the calibration
    label and the slider are given the stored offset, and [fetchSensorData]
    ends with the status "Connected".  When the reported temperature is NaN
    or an infinity, the text is not JSON: [response.json()] rejects it, and
    [fetchSensorData] sets the status "Connection Error" and nothing else. *)
Theorem page_follows_response
    (hw : hardware) (w : world) (env : readings) (p : JS.page) :
  reachable float_of_str hw w ->
  exists offset body,
    stored_offset w = Some offset /\
    fst (get_sensor_data env w) = Returned 200 body /\
    let response := JS.response_json (fst (get_sensor_data env w)) in
    if default true (is_finite <$> reported_temperature env w offset) then
      response = Some body /\
      snd (JS.updateUI toFixed1 to_string body p) = None /\
      JS.calValue_textContent (fst (JS.updateUI toFixed1 to_string body p)) =
        toFixed1 offset ++ "°C" /\
      JS.calSlider_value (fst (JS.updateUI toFixed1 to_string body p)) =
        to_string offset /\
      JS.status_textContent (JS.fetchSensorData toFixed1 to_string response p) =
        "Connected"
    else
      response = None /\
      JS.fetchSensorData toFixed1 to_string response p =
        JS.set_status "Connection Error" "text-center font-semibold text-red-500" p.
Proof.
  intros Hreach.
  destruct (reachable_offset_in_range float_of_str hw w Hreach) as (offset & Hoff & Hin).
  apply in_range_finite in Hin.
  exists offset. eexists. split; [exact Hoff|].
  rewrite (get_sensor_data_reported env w offset Hoff).
  split; [reflexivity|]. cbv zeta. cbn [fst JS.response_json].
  rewrite (json_valid_data_body _ (reported_is_wet env w) offset), Hin, andb_true_r.
  destruct (default true (is_finite <$> reported_temperature env w offset)).
  - split; [reflexivity|].
    unfold JS.fetchSensorData. rewrite updateUI_data_body. repeat split.
  - split; reflexivity.
Qed.

(** X16.  After [updateUI] on the body of a GET /data response the moisture
    label reads "Wet" or "Dry", and it reads "Wet" exactly when the process
    is in hardware mode and the moisture read returned an inactive signal: a
    failed moisture read and the fallback mode are both shown as "Dry". *)
Theorem page_shows_wet_iff
    (hw : hardware) (w : world) (env : readings) (p : JS.page) :
  reachable float_of_str hw w ->
  exists body,
    fst (get_sensor_data env w) = Returned 200 body /\
    let label :=
      JS.moistureStatus_textContent (fst (JS.updateUI toFixed1 to_string body p)) in
    (label = "Wet" \/ label = "Dry") /\
    (label = "Wet" <-> mode_of w = Ready /\ is_active env = Some false).
Proof.
  intros Hreach.
  destruct (reachable_offset_in_range float_of_str hw w Hreach) as (offset & Hoff & _).
  eexists. rewrite (get_sensor_data_reported env w offset Hoff).
  split; [reflexivity|]. cbv zeta. rewrite updateUI_data_body.
  unfold reported_is_wet.
  destruct (mode_of w); [destruct (is_active env) as [[]|]|]; simpl;
    (split; [auto|]); split;
    solve [ intros H; discriminate H
          | intros [H1 H2]; discriminate
          | intros _; split; reflexivity
          | reflexivity ].
Qed.

(** X17.  When the temperature read fails in hardware mode, [updateUI] leaves
    the temperature text and the bar as they were, showing the last value;
    otherwise it writes the reported temperature, formatted, and the bounded
    percentage. *)
Theorem page_temperature_display
    (hw : hardware) (w : world) (env : readings) (p : JS.page) :
  reachable float_of_str hw w ->
  exists offset body,
    stored_offset w = Some offset /\
    fst (get_sensor_data env w) = Returned 200 body /\
    let p' := fst (JS.updateUI toFixed1 to_string body p) in
    match reported_temperature env w offset with
    | Some t =>
        JS.tempValue_textContent p' = toFixed1 t ++ "°C" /\
        JS.tempFill_style_width p' = to_string (JS.fill_percentage t) ++ "%"
    | None =>
        mode_of w = Ready /\ get_temperature env = None /\
        JS.tempValue_textContent p' = JS.tempValue_textContent p /\
        JS.tempFill_style_width p' = JS.tempFill_style_width p
    end.
Proof.
  intros Hreach.
  destruct (reachable_offset_in_range float_of_str hw w Hreach) as (offset & Hoff & _).
  exists offset. eexists. split; [exact Hoff|].
  rewrite (get_sensor_data_reported env w offset Hoff).
  split; [reflexivity|]. cbv zeta. rewrite updateUI_data_body.
  unfold reported_temperature, reported_is_wet.
  destruct (mode_of w);
    [destruct (get_temperature env), (is_active env) as [[]|]|];
    simpl; repeat split.
Qed.

End PageAndServer.

(** ** Runs of the script on concrete responses *)

Lemma updateUI_moisture_classes_witness :
  let d : gmap string pyval :=
    {[ "temperature" := VNone; "is_wet" := VBool true;
       "calibration_offset" := VFloat zero ]} in
  let p' := fst (JS.updateUI (fun _ => "0.0") (fun _ => "0") (VDict d) JS.initial_page) in
  JS.moistureStatus_textContent p' = "Wet" /\
  ("bg-green-50" ∈ JS.moistureBox_classList p' <-> true = true) /\
  ("bg-red-50" ∈ JS.moistureBox_classList p' <-> true = false) /\
  ("rounded-lg" ∈ JS.moistureBox_classList p' <->
   "rounded-lg" ∈ JS.moistureBox_classList JS.initial_page).
Proof.
  cbv zeta.
  pose proof (updateUI_moisture_classes (fun _ => "0.0") (fun _ => "0")
    {[ "temperature" := VNone; "is_wet" := VBool true;
       "calibration_offset" := VFloat zero ]} JS.initial_page) as H.
  destruct (H "bg-green-50" (or_introl eq_refl)) as (Hlabel & Hgreen & _ & _).
  destruct (H "bg-red-50" (or_introl eq_refl)) as (_ & _ & Hred & _).
  destruct (H "rounded-lg" (or_introl eq_refl)) as (_ & _ & _ & Hother).
  split; [exact Hlabel|]. split; [apply Hgreen; set_solver|].
  split; [apply Hred; set_solver|]. apply Hother. set_solver.
Defined.

Lemma page_follows_response_witness :
  let w := serve decimal_literal
             [ POST_calibrate (offset_request (VStr "2.5")) ] (startup both_sensors) in
  let env := Readings (Some lit_22_3) None in
  let toFixed1 := fun _ : float => "24.8" in
  let to_string := fun _ : float => "2.5" in
  reachable decimal_literal both_sensors w /\
  exists offset body,
    stored_offset w = Some offset /\
    fst (get_sensor_data env w) = Returned 200 body /\
    let response := JS.response_json (fst (get_sensor_data env w)) in
    if default true (is_finite <$> reported_temperature env w offset) then
      response = Some body /\
      snd (JS.updateUI toFixed1 to_string body JS.initial_page) = None /\
      JS.calValue_textContent (fst (JS.updateUI toFixed1 to_string body JS.initial_page)) =
        toFixed1 offset ++ "°C" /\
      JS.calSlider_value (fst (JS.updateUI toFixed1 to_string body JS.initial_page)) =
        to_string offset /\
      JS.status_textContent
        (JS.fetchSensorData toFixed1 to_string response JS.initial_page) = "Connected"
    else
      response = None /\
      JS.fetchSensorData toFixed1 to_string response JS.initial_page =
        JS.set_status "Connection Error" "text-center font-semibold text-red-500"
          JS.initial_page.
Proof.
  cbv zeta. split; [apply reachable_serve|].
  apply (page_follows_response decimal_literal (fun _ => "24.8") (fun _ => "2.5")
           both_sensors).
  apply reachable_serve.
Defined.

(** A NaN reading: the response is not JSON and the page only reports the
    connection error. *)
Example fetchSensorData_nan_reading :
  let env := Readings (Some S754_nan) (Some true) in
  let response := JS.response_json (fst (get_sensor_data env (startup both_sensors))) in
  response = None /\
  JS.fetchSensorData (fun _ => "NaN") (fun _ => "NaN") response JS.initial_page =
  JS.set_status "Connection Error" "text-center font-semibold text-red-500"
    JS.initial_page.
Proof. split; vm_compute; reflexivity. Qed.

Lemma page_shows_wet_iff_witness :
  let w := startup both_sensors in
  let env := Readings (Some lit_22_3) None in
  reachable decimal_literal both_sensors w /\
  exists body,
    fst (get_sensor_data env w) = Returned 200 body /\
    let label :=
      JS.moistureStatus_textContent
        (fst (JS.updateUI (fun _ => "22.3") (fun _ => "0") body JS.initial_page)) in
    (label = "Wet" \/ label = "Dry") /\
    (label = "Wet" <-> mode_of w = Ready /\ is_active env = Some false).
Proof.
  cbv zeta. split; [constructor|].
  apply (page_shows_wet_iff decimal_literal (fun _ => "22.3") (fun _ => "0")
           both_sensors).
  constructor.
Defined.

Lemma page_temperature_display_witness :
  let w := startup both_sensors in
  let env := Readings None (Some true) in
  reachable decimal_literal both_sensors w /\
  exists offset body,
    stored_offset w = Some offset /\
    fst (get_sensor_data env w) = Returned 200 body /\
    let p' := fst (JS.updateUI (fun _ => "0.0") (fun _ => "0") body JS.initial_page) in
    match reported_temperature env w offset with
    | Some t =>
        JS.tempValue_textContent p' = "0.0" ++ "°C" /\
        JS.tempFill_style_width p' = "0" ++ "%"
    | None =>
        mode_of w = Ready /\ get_temperature env = None /\
        JS.tempValue_textContent p' = JS.tempValue_textContent JS.initial_page /\
        JS.tempFill_style_width p' = JS.tempFill_style_width JS.initial_page
    end.
Proof.
  cbv zeta. split; [constructor|].
  apply (page_temperature_display decimal_literal (fun _ => "0.0") (fun _ => "0")
           both_sensors).
  constructor.
Defined.
